(** * nanobot/api/server.py: the HTTP API server of the nanobot agent

    A shallow embedding of [NanobotAPIServer] (its constructor, [start],
    [stop], [_handle_chat] and [_handle_health]) and the properties of
    its two request handlers and of its life cycle.

    Python values are an inductive type, Python exceptions are values of
    an error type, and the methods are computations in a monad that
    threads the interpreter state and may raise: a raised exception keeps
    the state reached so far, as in Python.  A logging call with a
    keyword argument formats its message with [str.format], which may
    raise too. *)

From Stdlib Require Import String Ascii ZArith List SpecFloat Lia.
From ExtLib Require Import Structures.Monad Structures.MonadExc.
Import ListNotations.
Import MonadNotation.
Local Open Scope string_scope.
Local Open Scope monad_scope.
Local Set Warnings "-register-all".

(** ** Python values *)

(** The values [json.loads] produces, which are also the values
    [json.dumps] accepts: [None], [bool], [int], [float], [str], [list]
    and a [dict] with string keys, in insertion order.  A [str] is held
    as its UTF-8 encoding, one [ascii] for each byte. *)
Inductive pyval : Type :=
| PyNone
| PyBool (b : bool)
| PyInt (z : Z)
| PyFloat (f : spec_float)
| PyStr (s : string)
| PyList (l : list pyval)
| PyDict (d : list (string * pyval)).

(** [type(v).__name__] *)
Definition type_name (v : pyval) : string :=
  match v with
  | PyNone => "NoneType"
  | PyBool _ => "bool"
  | PyInt _ => "int"
  | PyFloat _ => "float"
  | PyStr _ => "str"
  | PyList _ => "list"
  | PyDict _ => "dict"
  end.

(** [bool(v)]: [None], [False], zero, and the empty string, list and dict
    are false; a NaN is true. *)
Definition truthy (v : pyval) : bool :=
  match v with
  | PyNone => false
  | PyBool b => b
  | PyInt z => negb (z =? 0)%Z
  | PyFloat (S754_zero _) => false
  | PyFloat _ => true
  | PyStr "" => false
  | PyStr _ => true
  | PyList [] => false
  | PyList _ => true
  | PyDict [] => false
  | PyDict _ => true
  end.

(** A byte [10xxxxxx] continues the character that the bytes before it
    began. *)
Definition continuation (c : ascii) : bool :=
  match c with
  | Ascii _ _ _ _ _ _ false true => true
  | _ => false
  end.

(** [len(s)]: the number of characters. *)
Fixpoint str_len (s : string) : nat :=
  match s with
  | EmptyString => 0
  | String c s' => if continuation c then str_len s' else S (str_len s')
  end.

(** [s[:n]]: the first [n] characters, each with all its bytes. *)
Fixpoint str_slice (n : nat) (s : string) : string :=
  match s with
  | EmptyString => EmptyString
  | String c s' =>
      if continuation c then String c (str_slice n s')
      else match n with
           | O => EmptyString
           | S n' => String c (str_slice n' s')
           end
  end.

(** [a or b] *)
Definition py_or (a b : pyval) : pyval := if truthy a then a else b.

(** The binding of key [k] in a dict: the first one in the list. *)
Fixpoint dict_lookup (k : string) (d : list (string * pyval)) : option pyval :=
  match d with
  | [] => None
  | (k', v) :: d' => if String.eqb k k' then Some v else dict_lookup k d'
  end.

(** ** Exceptions *)

(** An instance of a subclass of Python's [Exception]: the name of its
    class and the text [str(e)]. *)
Record Exception : Type := mkException { exc_type : string; exc_str : string }.

Definition AttributeError (v : pyval) (attr : string) : Exception :=
  mkException "AttributeError"
    ("'" ++ type_name v ++ "' object has no attribute '" ++ attr ++ "'").

Definition TypeError (msg : string) : Exception := mkException "TypeError" msg.

Definition ValueError (msg : string) : Exception := mkException "ValueError" msg.

(** [v.get(key, default)]: a method of [dict] only. *)
Definition py_get (v : pyval) (key : string) (default : pyval) : Exception + pyval :=
  match v with
  | PyDict d =>
      match dict_lookup key d with
      | Some x => inr x
      | None => inr default
      end
  | _ => inl (AttributeError v "get")
  end.

(** [v[:n]]: the first [n] items of a [str] or of a [list].  The other
    types have no [__getitem__], except [dict], whose [__getitem__] looks
    the slice up as a key and fails (before Python 3.12 already when it
    hashes the slice, the case written here). *)
Definition py_getslice (v : pyval) (n : nat) : Exception + pyval :=
  match v with
  | PyStr s => inr (PyStr (str_slice n s))
  | PyList l => inr (PyList (firstn n l))
  | PyDict _ => inl (TypeError "unhashable type: 'slice'")
  | _ => inl (TypeError ("'" ++ type_name v ++ "' object is not subscriptable"))
  end.

(** ** [str.format]

    loguru formats the message of a logging call that has keyword
    arguments: [logger.error(msg, exc_info=True)] runs
    [msg.format(exc_info=True)] before it emits the record.  The scan
    below is that of [str.format] with no positional argument and the one
    keyword argument [exc_info=True], on every message whose replacement
    fields are plain names of letters, digits and underscores; a field
    with anything else in it (an index, an attribute, a conversion, a
    format specification) is left to the environment. *)

Definition name_char (c : ascii) : bool :=
  ((Ascii.leb "a" c && Ascii.leb c "z")
   || (Ascii.leb "A" c && Ascii.leb c "Z")
   || (Ascii.leb "0" c && Ascii.leb c "9")
   || Ascii.eqb c "_")%bool%char.

Fixpoint all_digits (s : string) : bool :=
  match s with
  | EmptyString => true
  | String c s' => (Ascii.leb "0" c && Ascii.leb c "9" && all_digits s')%bool%char
  end.

Inductive scanned : Type :=
| Formatted (text : string)
| Raises (e : Exception)
| Unscanned.

(** Where the scan is: in literal text, after a [{], in the name of a
    field, after a [}]. *)
Inductive scan_state : Type :=
| In_text
| After_open
| In_field (name : string)
| After_close.

(** The field [{name}] is complete: [exc_info] is the keyword argument
    and formats as [True]; no other name is an argument. *)
Definition lookup_field (name : string) : scanned :=
  if String.eqb name "exc_info" then Formatted "True"
  else if all_digits name then Unscanned
  else Raises (mkException "KeyError" ("'" ++ name ++ "'")).

Fixpoint scan (st : scan_state) (out : string) (s : string) : scanned :=
  match s with
  | EmptyString =>
      match st with
      | In_text => Formatted out
      | After_open => Raises (ValueError "Single '{' encountered in format string")
      | In_field _ => Raises (ValueError "expected '}' before end of string")
      | After_close => Raises (ValueError "Single '}' encountered in format string")
      end
  | String c s' =>
      match st with
      | In_text =>
          if Ascii.eqb c "{" then scan After_open out s'
          else if Ascii.eqb c "}" then scan After_close out s'
          else scan In_text (out ++ String c "") s'
      | After_open =>
          if Ascii.eqb c "{" then scan In_text (out ++ "{") s'
          else if Ascii.eqb c "}" then
            Raises (mkException "IndexError"
                      "Replacement index 0 out of range for positional args tuple")
          else if name_char c then scan (In_field (String c "")) out s'
          else Unscanned
      | In_field name =>
          if Ascii.eqb c "}" then
            match lookup_field name with
            | Formatted text => scan In_text (out ++ text) s'
            | other => other
            end
          else if name_char c then scan (In_field (name ++ String c "")) out s'
          else Unscanned
      | After_close =>
          if Ascii.eqb c "}" then scan In_text (out ++ "}") s'
          else Raises (ValueError "Single '}' encountered in format string")
      end
  end.

(** ** The aiohttp objects *)

(** The two bound methods the server registers as route handlers. *)
Inductive handler : Type := handle_chat_method | handle_health_method.

Record route : Type := mkRoute
  { route_method : string; route_path : string; route_handler : handler }.

(** [web.Application]: its identity and the routes of its router. *)
Record Application : Type := mkApplication
  { app_oid : nat; app_routes : list route }.

Definition add_post (app : Application) (path : string) (h : handler) : Application :=
  mkApplication (app_oid app) (app_routes app ++ [mkRoute "POST" path h]).

Definition add_get (app : Application) (path : string) (h : handler) : Application :=
  mkApplication (app_oid app) (app_routes app ++ [mkRoute "GET" path h]).

(** [web.AppRunner(app)] *)
Record AppRunner : Type := mkAppRunner
  { runner_oid : nat; runner_app : Application }.

(** [web.TCPSite(runner, host, port)] *)
Record TCPSite : Type := mkTCPSite
  { site_oid : nat; site_runner : AppRunner; site_host : string; site_port : Z }.

(** [web.Request]: the handlers only await [request.json()], which
    returns the decoded body or raises. *)
Record Request : Type := mkRequest { json : Exception + pyval }.

(** [web.Response] as [web.json_response] builds it; [body] is the JSON
    document that is serialised into the response text. *)
Record Response : Type := mkResponse
  { status : Z; content_type : string; body : pyval }.

(** [web.json_response(data, status=status)] *)
Definition json_response (data : pyval) (status : Z) : Response :=
  mkResponse status "application/json" data.

(** ** The log *)

Inductive log_level : Type := INFO | ERROR.

(** The messages the server logs, with the values that are formatted
    into them. *)
Inductive log_message : Type :=
| Log_server_started (host : string) (port : Z)
| Log_server_stopped
| Log_chat_request (session_id preview : pyval)
| Log_chat_response (preview : pyval)
| Log_chat_error (e : Exception).

(** ** The collaborators *)

(** What the server calls and does not define: the agent's
    [process_direct] (of [nanobot.agent.loop.AgentLoop]) and the awaited
    methods of aiohttp's runner and site, each of which acts on the world
    outside the server and returns or raises; and [msg.format(
    exc_info=True)] on the messages that the scan leaves. *)
Class Environment : Type := mkEnvironment
  { World : Type;
    AgentLoop : Type;
    process_direct :
      AgentLoop -> pyval -> pyval -> pyval -> pyval -> World -> (Exception + pyval) * World;
    AppRunner_setup : AppRunner -> World -> (Exception + unit) * World;
    TCPSite_start : TCPSite -> World -> (Exception + unit) * World;
    AppRunner_cleanup : AppRunner -> World -> (Exception + unit) * World;
    format_fields : string -> Exception + string }.

(** One invocation of [process_direct], with its keyword arguments. *)
Record invocation : Type := mkInvocation
  { content : pyval; session_key : pyval; channel : pyval; chat_id : pyval }.

(** ** The server *)

Section Server.

Context {env : Environment}.

(** The fields of a [NanobotAPIServer] instance. *)
Record NanobotAPIServer : Type := mkNanobotAPIServer
  { agent : AgentLoop;
    host : string;
    port : Z;
    _app : option Application;
    _runner : option AppRunner;
    _site : option TCPSite }.

Definition default_host : string := "0.0.0.0".
Definition default_port : Z := 18790.

(** [NanobotAPIServer(agent, host, port)] *)
Definition __init__ (agent : AgentLoop) (host : string) (port : Z) : NanobotAPIServer :=
  {| agent := agent; host := host; port := port;
     _app := None; _runner := None; _site := None |}.

(** What a method runs in: the instance [self], the world of the
    collaborators, the records sent to the logger, the history of the
    invocations of [process_direct], and the identity of the next object
    to be created. *)
Record state : Type := mkState
  { self : NanobotAPIServer;
    world : World;
    log : list (log_level * log_message);
    calls : list invocation;
    next_oid : nat }.

(** A computation returns a value or raises, and leaves a state either
    way. *)
Definition M (A : Type) : Type := state -> (Exception + A) * state.

#[global] Instance Monad_M : Monad M :=
  {| ret := fun _ a s => (inr a, s);
     bind := fun _ _ c k s =>
       match c s with
       | (inr a, s') => k a s'
       | (inl e, s') => (inl e, s')
       end |}.

(** [raise e], and [try: c except Exception as e: h e] *)
#[global] Instance MonadExc_M : MonadExc Exception M :=
  {| raise := fun _ e s => (inl e, s);
     catch := fun _ c h s =>
       match c s with
       | (inr a, s') => (inr a, s')
       | (inl e, s') => h e s'
       end |}.

Definition gets {A : Type} (f : state -> A) : M A := fun s => (inr (f s), s).
Definition modify (f : state -> state) : M unit := fun s => (inr tt, f s).

(** The outcome of an expression that returns or raises. *)
Definition eval {A : Type} (r : Exception + A) : M A :=
  match r with
  | inr a => ret a
  | inl e => raise e
  end.

(** [await] of a call into the world outside. *)
Definition await {A : Type} (call : World -> (Exception + A) * World) : M A :=
  fun s =>
    let (r, w) := call (world s) in
    (r, mkState (self s) w (log s) (calls s) (next_oid s)).

Definition set_self (f : NanobotAPIServer -> NanobotAPIServer) : M unit :=
  modify (fun s => mkState (f (self s)) (world s) (log s) (calls s) (next_oid s)).

(** [self._app = v], [self._runner = v], [self._site = v] *)
Definition set__app (v : option Application) : M unit :=
  set_self (fun o => mkNanobotAPIServer (agent o) (host o) (port o) v (_runner o) (_site o)).
Definition set__runner (v : option AppRunner) : M unit :=
  set_self (fun o => mkNanobotAPIServer (agent o) (host o) (port o) (_app o) v (_site o)).
Definition set__site (v : option TCPSite) : M unit :=
  set_self (fun o => mkNanobotAPIServer (agent o) (host o) (port o) (_app o) (_runner o) v).

(** The identity of a newly created object. *)
Definition new_oid : M nat :=
  fun s => (inr (next_oid s),
            mkState (self s) (world s) (log s) (calls s) (S (next_oid s))).

(** [logger.info(msg)]: a call with the message alone emits the record;
    the logger is a sink. *)
Definition logger (lvl : log_level) (msg : log_message) : M unit :=
  modify (fun s => mkState (self s) (world s) (log s ++ [(lvl, msg)]) (calls s) (next_oid s)).

(** [text.format(exc_info=True)] *)
Definition str_format (text : string) : Exception + string :=
  match scan In_text "" text with
  | Formatted formatted => inr formatted
  | Raises e => inl e
  | Unscanned => format_fields text
  end.

(** [logger.error(text, exc_info=True)]: the message is formatted with
    the keyword argument, which may raise, and the record is emitted. *)
Definition logger_exc_info (lvl : log_level) (text : string) (msg : log_message) : M unit :=
  eval (str_format text) ;;
  logger lvl msg.

(** [await self.agent.process_direct(content=..., session_key=...,
    channel=..., chat_id=...)]: the invocation is entered in the history
    and the agent runs on the world. *)
Definition agent_process_direct (content session_key channel chat_id : pyval) : M pyval :=
  a <- gets (fun s => agent (self s)) ;;
  modify (fun s => mkState (self s) (world s) (log s)
                     (calls s ++ [mkInvocation content session_key channel chat_id])
                     (next_oid s)) ;;
  await (process_direct a content session_key channel chat_id).

(** [async def start(self)] *)
Definition start : M unit :=
  oid <- new_oid ;;
  let app := mkApplication oid [] in
  set__app (Some app) ;;
  let app := add_post app "/api/chat" handle_chat_method in
  set__app (Some app) ;;
  let app := add_get app "/health" handle_health_method in
  set__app (Some app) ;;
  oid <- new_oid ;;
  let runner := mkAppRunner oid app in
  set__runner (Some runner) ;;
  await (AppRunner_setup runner) ;;
  oid <- new_oid ;;
  h <- gets (fun s => host (self s)) ;;
  p <- gets (fun s => port (self s)) ;;
  let site := mkTCPSite oid runner h p in
  set__site (Some site) ;;
  await (TCPSite_start site) ;;
  logger INFO (Log_server_started h p).

(** [async def stop(self)] *)
Definition stop : M unit :=
  r <- gets (fun s => _runner (self s)) ;;
  match r with
  | Some runner =>
      await (AppRunner_cleanup runner) ;;
      logger INFO Log_server_stopped
  | None => ret tt
  end.

(** [async def _handle_chat(self, request)].  The first [try] either
    binds [data] or returns the 400 response; the rest of the body runs
    on [data]. *)
Definition _handle_chat (request : Request) : M Response :=
  parsed <- catch
    (data <- eval (json request) ;;
     ret (inr data))
    (fun e =>
       ret (inl (json_response
                   (PyDict [("error", PyStr ("Invalid JSON: " ++ exc_str e))]) 400))) ;;
  match parsed with
  | inl response => ret response
  | inr data =>
      message <- eval (py_get data "message" PyNone) ;;
      if negb (truthy message) then
        ret (json_response (PyDict [("error", PyStr "Missing 'message' field")]) 400)
      else
        session_id <- eval (py_get data "session_id" (PyStr "api:default")) ;;
        channel <- eval (py_get data "channel" (PyStr "api")) ;;
        chat_id <- eval (py_get data "chat_id" (PyStr "default")) ;;
        preview <- eval (py_getslice message 50) ;;
        logger INFO (Log_chat_request session_id preview) ;;
        catch
          (response <- agent_process_direct message session_id channel chat_id ;;
           preview <- (if truthy response then eval (py_getslice response 100)
                       else ret (PyStr "(empty)")) ;;
           logger INFO (Log_chat_response preview) ;;
           ret (json_response
                  (PyDict [("response", py_or response (PyStr ""));
                           ("session_id", session_id)]) 200))
          (fun e =>
             logger_exc_info ERROR ("API chat error: " ++ exc_str e) (Log_chat_error e) ;;
             ret (json_response (PyDict [("error", PyStr (exc_str e))]) 500))
  end.

(** [async def _handle_health(self, request)] *)
Definition _handle_health (request : Request) : M Response :=
  ret (json_response (PyDict [("status", PyStr "ok")]) 200).

End Server.

Arguments NanobotAPIServer : clear implicits.
Arguments state : clear implicits.

(** ** A concrete environment

    An environment to run the model in.  Its world is the list of the
    listening sockets (the runner that owns the socket, the host, the
    port); binding an address that is listening already fails as the
    operating system makes it fail.  Its agent answers by a script.  No
    run in it reaches a message that the scan of [str.format] leaves to
    the environment, and it fails on one. *)

Definition demo_World : Type := list (nat * string * Z).

Definition listening (h : string) (p : Z) (w : demo_World) : bool :=
  existsb (fun '(_, h', p') => String.eqb h h' && Z.eqb p p')%bool w.

(** What the scripted agent raises. *)
Definition agent_exploded : Exception := mkException "RuntimeError" "agent exploded".

Definition bad_field : Exception := mkException "ValueError" "bad {x}".

Definition demo_process_direct (a : unit) (content session_key channel chat_id : pyval)
    (w : demo_World) : (Exception + pyval) * demo_World :=
  match content with
  | PyStr m =>
      if String.eqb m "Hello!" then (inr (PyStr "Hi there!"), w)
      else if String.eqb m "crash" then (inl agent_exploded, w)
      else if String.eqb m "braces" then (inl bad_field, w)
      else (inr PyNone, w)
  | _ => (inl (TypeError "content must be str"), w)
  end.

Definition demo_setup (r : AppRunner) (w : demo_World) : (Exception + unit) * demo_World :=
  (inr tt, w).

Definition demo_site_start (t : TCPSite) (w : demo_World) : (Exception + unit) * demo_World :=
  if listening (site_host t) (site_port t) w
  then (inl (mkException "OSError" "[Errno 98] address already in use"), w)
  else (inr tt, (w ++ [(runner_oid (site_runner t), site_host t, site_port t)])%list).

Definition demo_cleanup (r : AppRunner) (w : demo_World) : (Exception + unit) * demo_World :=
  (inr tt, filter (fun '(o, _, _) => negb (Nat.eqb o (runner_oid r))) w).

Definition demo_format_fields (text : string) : Exception + string :=
  inl (ValueError "Invalid format specifier").

Definition demo : Environment :=
  {| World := demo_World;
     AgentLoop := unit;
     process_direct := demo_process_direct;
     AppRunner_setup := demo_setup;
     TCPSite_start := demo_site_start;
     AppRunner_cleanup := demo_cleanup;
     format_fields := demo_format_fields |}.

(** A server just constructed with the default host and port, in a world
    where nothing listens. *)
Definition demo_new : state demo :=
  {| self := __init__ (env := demo) tt default_host default_port;
     world := [] : @World demo;
     log := [];
     calls := [];
     next_oid := 0 |}.

(** The JSON object [{"message": m}] as a request. *)
Definition message_request (m : pyval) : Request :=
  mkRequest (inr (PyDict [("message", m)])).

(** The body [{"message": "Hello!", "session_id": "voice:device123"}]. *)
Definition voice_body : list (string * pyval) :=
  [("message", PyStr "Hello!"); ("session_id", PyStr "voice:device123")].

(** The body [{"session_id": "x"}]. *)
Definition session_body : list (string * pyval) := [("session_id", PyStr "x")].

(** What [json.loads] raises on an empty body. *)
Definition decode_error : Exception :=
  mkException "JSONDecodeError" "Expecting value: line 1 column 1 (char 0)".

(** ** Reading the handler *)

(** [data.get(key, default)] on a dict. *)
Definition field (d : list (string * pyval)) (key : string) (default : pyval) : pyval :=
  match dict_lookup key d with
  | Some v => v
  | None => default
  end.

(** The keyword arguments [_handle_chat] passes for the body [d] whose
    message is [m]. *)
Definition invocation_of (m : pyval) (d : list (string * pyval)) : invocation :=
  {| content := m;
     session_key := field d "session_id" (PyStr "api:default");
     channel := field d "channel" (PyStr "api");
     chat_id := field d "chat_id" (PyStr "default") |}.

(** The agent [a] run on the invocation [i]. *)
Definition invoke {env : Environment} (a : AgentLoop) (i : invocation) (w : World)
    : (Exception + pyval) * World :=
  process_direct a (content i) (session_key i) (channel i) (chat_id i) w.

(** A chat request as the data model has it: a JSON object whose
    [message] is a non-empty string. *)
Definition valid_chat_request (request : Request) (d : list (string * pyval)) (m : string) : Prop :=
  json request = inr (PyDict d) /\ dict_lookup "message" d = Some (PyStr m) /\ m <> "".

(** What the processor returned, when it is a string or is absent. *)
Definition returned (t : option string) : pyval :=
  match t with
  | Some x => PyStr x
  | None => PyNone
  end.

(** The two response bodies. *)
Definition ChatResponse (response : string) (session_id : pyval) : pyval :=
  PyDict [("response", PyStr response); ("session_id", session_id)].

Definition ErrorResponse (error : string) : pyval :=
  PyDict [("error", PyStr error)].

(** Whether a brace occurs in [s]. *)
Fixpoint has_brace (s : string) : bool :=
  match s with
  | EmptyString => false
  | String c s' => (Ascii.eqb c "{" || Ascii.eqb c "}" || has_brace s')%bool
  end.

(** The message of the error record: [f"API chat error: {e}"]. *)
Definition error_text (e : Exception) : string := "API chat error: " ++ exc_str e.

(** The state in which the processor has answered the request [d] of
    message [m] and left the world [w], and the handler has logged
    [entry] after it. *)
Definition answered {env : Environment} (s : state env) (m : string)
    (d : list (string * pyval)) (w : World) (entry : log_level * log_message) : state env :=
  {| self := self s;
     world := w;
     log := ((log s
              ++ [(INFO, Log_chat_request (field d "session_id" (PyStr "api:default"))
                           (PyStr (str_slice 50 m)))])
             ++ [entry])%list;
     calls := (calls s ++ [invocation_of (PyStr m) d])%list;
     next_oid := next_oid s |}.

(** The spec's guard on [start]: the call fails with [AlreadyRunning] and
    leaves the instance as it was. *)
Definition fails_AlreadyRunning {env : Environment} (s : state env) : Prop :=
  exists e, fst (start s) = inl e /\ exc_type e = "AlreadyRunning" /\
            self (snd (start s)) = self s.

(** ** The paths of the handlers and of the life cycle *)

(** The types on which [v[:n]] is defined, as [py_getslice] has them. *)
Definition sliceable (v : pyval) : bool :=
  match v with
  | PyStr _ | PyList _ => true
  | _ => false
  end.

(** The numbers and the truth values: [int], [float] and [bool]. *)
Definition number_or_bool (v : pyval) : bool :=
  match v with
  | PyInt _ | PyFloat _ | PyBool _ => true
  | _ => false
  end.

(** [data.get("message")] on the body [d]. *)
Definition message_of (d : list (string * pyval)) : pyval := field d "message" PyNone.

(** The state after the processor ran on the body [d] and left the world
    [w]: the request is logged with the preview [p] of its message, the
    invocation is in the history, and [entry] is logged last. *)
Definition handled {env : Environment} (s : state env) (d : list (string * pyval))
    (p : pyval) (w : World) (entry : log_level * log_message) : state env :=
  {| self := self s;
     world := w;
     log := ((log s
              ++ [(INFO, Log_chat_request (field d "session_id" (PyStr "api:default")) p)])
             ++ [entry])%list;
     calls := (calls s ++ [invocation_of (message_of d) d])%list;
     next_oid := next_oid s |}.

(** The same state before [entry] is logged. *)
Definition requested {env : Environment} (s : state env) (d : list (string * pyval))
    (p : pyval) (w : World) : state env :=
  {| self := self s;
     world := w;
     log := (log s
             ++ [(INFO, Log_chat_request (field d "session_id" (PyStr "api:default")) p)])%list;
     calls := (calls s ++ [invocation_of (message_of d) d])%list;
     next_oid := next_oid s |}.


(** The paths through [_handle_chat]: the two early returns, the two
    raises between the [try] blocks, the four ways the second [try]
    ends, and the two on which the error record's message does not
    format. *)
Inductive chat_path {env : Environment} (request : Request) (s : state env)
    : (Exception + Response) * state env -> Prop :=
| Path_invalid_json (e : Exception) :
    json request = inl e ->
    chat_path request s
      (inr (json_response (ErrorResponse ("Invalid JSON: " ++ exc_str e)) 400), s)
| Path_not_a_dict (data : pyval) :
    json request = inr data ->
    (forall d, data <> PyDict d) ->
    chat_path request s (inl (AttributeError data "get"), s)
| Path_no_message (d : list (string * pyval)) :
    json request = inr (PyDict d) ->
    truthy (message_of d) = false ->
    chat_path request s
      (inr (json_response (ErrorResponse "Missing 'message' field") 400), s)
| Path_message_slice_raises (d : list (string * pyval)) (e : Exception) :
    json request = inr (PyDict d) ->
    truthy (message_of d) = true ->
    py_getslice (message_of d) 50 = inl e ->
    chat_path request s (inl e, s)
| Path_processor_raises (d : list (string * pyval)) (p : pyval) (e : Exception) (w : World) :
    json request = inr (PyDict d) ->
    truthy (message_of d) = true ->
    py_getslice (message_of d) 50 = inr p ->
    invoke (agent (self s)) (invocation_of (message_of d) d) (world s) = (inl e, w) ->
    (exists text, str_format (error_text e) = inr text) ->
    chat_path request s
      (inr (json_response (ErrorResponse (exc_str e)) 500),
       handled s d p w (ERROR, Log_chat_error e))
| Path_processor_raises_unlogged (d : list (string * pyval)) (p : pyval)
    (e e' : Exception) (w : World) :
    json request = inr (PyDict d) ->
    truthy (message_of d) = true ->
    py_getslice (message_of d) 50 = inr p ->
    invoke (agent (self s)) (invocation_of (message_of d) d) (world s) = (inl e, w) ->
    str_format (error_text e) = inl e' ->
    chat_path request s (inl e', requested s d p w)
| Path_response_falsy (d : list (string * pyval)) (p r : pyval) (w : World) :
    json request = inr (PyDict d) ->
    truthy (message_of d) = true ->
    py_getslice (message_of d) 50 = inr p ->
    invoke (agent (self s)) (invocation_of (message_of d) d) (world s) = (inr r, w) ->
    truthy r = false ->
    chat_path request s
      (inr (json_response
              (PyDict [("response", PyStr "");
                       ("session_id", field d "session_id" (PyStr "api:default"))]) 200),
       handled s d p w (INFO, Log_chat_response (PyStr "(empty)")))
| Path_response (d : list (string * pyval)) (p r q : pyval) (w : World) :
    json request = inr (PyDict d) ->
    truthy (message_of d) = true ->
    py_getslice (message_of d) 50 = inr p ->
    invoke (agent (self s)) (invocation_of (message_of d) d) (world s) = (inr r, w) ->
    truthy r = true ->
    py_getslice r 100 = inr q ->
    chat_path request s
      (inr (json_response
              (PyDict [("response", r);
                       ("session_id", field d "session_id" (PyStr "api:default"))]) 200),
       handled s d p w (INFO, Log_chat_response q))
| Path_response_slice_raises (d : list (string * pyval)) (p r : pyval) (e : Exception)
    (w : World) :
    json request = inr (PyDict d) ->
    truthy (message_of d) = true ->
    py_getslice (message_of d) 50 = inr p ->
    invoke (agent (self s)) (invocation_of (message_of d) d) (world s) = (inr r, w) ->
    truthy r = true ->
    py_getslice r 100 = inl e ->
    (exists text, str_format (error_text e) = inr text) ->
    chat_path request s
      (inr (json_response (ErrorResponse (exc_str e)) 500),
       handled s d p w (ERROR, Log_chat_error e))
| Path_response_slice_raises_unlogged (d : list (string * pyval)) (p r : pyval)
    (e e' : Exception) (w : World) :
    json request = inr (PyDict d) ->
    truthy (message_of d) = true ->
    py_getslice (message_of d) 50 = inr p ->
    invoke (agent (self s)) (invocation_of (message_of d) d) (world s) = (inr r, w) ->
    truthy r = true ->
    py_getslice r 100 = inl e ->
    str_format (error_text e) = inl e' ->
    chat_path request s (inl e', requested s d p w).

(** The objects [start] creates in the state [s]. *)
Definition started_app {env : Environment} (s : state env) : Application :=
  {| app_oid := next_oid s;
     app_routes := [mkRoute "POST" "/api/chat" handle_chat_method;
                    mkRoute "GET" "/health" handle_health_method] |}.

Definition started_runner {env : Environment} (s : state env) : AppRunner :=
  {| runner_oid := S (next_oid s); runner_app := started_app s |}.

Definition started_site {env : Environment} (s : state env) : TCPSite :=
  {| site_oid := S (S (next_oid s)); site_runner := started_runner s;
     site_host := host (self s); site_port := port (self s) |}.

(** The methods of the server, as calls made on it. *)
Inductive call : Type :=
| Start
| Stop
| Chat (request : Request)
| Health (request : Request).

Definition is_start (c : call) : bool :=
  match c with Start => true | _ => false end.

Definition is_chat (c : call) : bool :=
  match c with Chat _ => true | _ => false end.

(** The state a call leaves, whether it returns or raises. *)
Definition after {env : Environment} (c : call) (s : state env) : state env :=
  match c with
  | Start => snd (start s)
  | Stop => snd (stop s)
  | Chat request => snd (_handle_chat request s)
  | Health request => snd (_handle_health request s)
  end.

(** The state a sequence of calls leaves. *)
Definition after_all {env : Environment} (cs : list call) (s : state env) : state env :=
  fold_left (fun s c => after c s) cs s.

(** The server of the concrete environment after its first [start]. *)
Definition demo_started : state demo := snd (start demo_new).

(** A second environment: its agent answers with the number of the
    invocations before this one, an [int]. *)
Definition counting : Environment :=
  {| World := nat;
     AgentLoop := unit;
     process_direct := fun _ _ _ _ _ n => (inr (PyInt (Z.of_nat n)), S n);
     AppRunner_setup := fun _ n => (inr tt, n);
     TCPSite_start := fun _ n => (inr tt, n);
     AppRunner_cleanup := fun _ n => (inr tt, n);
     format_fields := demo_format_fields |}.

(** A new server of the counting agent, after [n] invocations. *)
Definition counting_new (n : nat) : state counting :=
  {| self := __init__ (env := counting) tt default_host default_port;
     world := n : @World counting;
     log := [];
     calls := [];
     next_oid := 0 |}.


(** ** Properties *)

Section Properties.

Context {env : Environment}.

Implicit Types (s : state env) (request : Request) (d : list (string * pyval)).

(** *** Python values *)

Lemma truthy_nonempty_str (m : string) : m <> "" -> truthy (PyStr m) = true.
Proof. destruct m; [congruence | reflexivity]. Qed.

Lemma py_get_dict d key default :
  py_get (PyDict d) key default = inr (field d key default).
Proof. unfold py_get, field. destruct (dict_lookup key d); reflexivity. Qed.

Lemma field_present d key default v :
  dict_lookup key d = Some v -> field d key default = v.
Proof. unfold field. intros ->. reflexivity. Qed.

Lemma field_absent d key default :
  dict_lookup key d = None -> field d key default = default.
Proof. unfold field. intros ->. reflexivity. Qed.

Lemma py_getslice_str (m : string) (n : nat) :
  py_getslice (PyStr m) n = inr (PyStr (str_slice n m)).
Proof. reflexivity. Qed.

Lemma py_or_returned (t : option string) :
  py_or (returned t) (PyStr "") =
  PyStr (match t with Some x => x | None => "" end).
Proof. destruct t as [[|c x]|]; reflexivity. Qed.

(** The preview of a returned string or [None] never raises. *)
Lemma preview_returned (t : option string) :
  exists p,
    (if truthy (returned t) then py_getslice (returned t) 100 else inr (PyStr "(empty)"))
    = inr p.
Proof. destruct t as [[|c x]|]; cbn; eauto. Qed.

Local Arguments py_get : simpl never.
Local Arguments py_getslice : simpl never.
Local Arguments truthy : simpl never.
Local Arguments field : simpl never.
Local Arguments str_slice : simpl never.
Local Arguments str_format : simpl never.

(** *** The paths of [_handle_chat] *)

(** The handler up to the test of [message], on a JSON object. *)
Ltac enter_chat Hjson :=
  unfold _handle_chat; cbn; rewrite Hjson; cbn; rewrite ?py_get_dict; cbn.

Lemma chat_invalid_json request s e :
  json request = inl e ->
  _handle_chat request s =
  (inr (json_response (ErrorResponse ("Invalid JSON: " ++ exc_str e)) 400), s).
Proof. intros Hjson. unfold _handle_chat. cbn. rewrite Hjson. reflexivity. Qed.

Lemma chat_not_a_dict request s data :
  json request = inr data -> (forall d, data <> PyDict d) ->
  _handle_chat request s = (inl (AttributeError data "get"), s).
Proof.
  intros Hjson Hdata. unfold _handle_chat. cbn. rewrite Hjson. cbn.
  destruct data; try reflexivity. now destruct (Hdata d).
Qed.

Lemma chat_falsy_message request s d :
  json request = inr (PyDict d) ->
  truthy (field d "message" PyNone) = false ->
  _handle_chat request s =
  (inr (json_response (ErrorResponse "Missing 'message' field") 400), s).
Proof. intros Hjson Hfalse. enter_chat Hjson. rewrite Hfalse. reflexivity. Qed.

Lemma chat_unsliceable_message request s d e :
  json request = inr (PyDict d) ->
  truthy (field d "message" PyNone) = true ->
  py_getslice (field d "message" PyNone) 50 = inl e ->
  _handle_chat request s = (inl e, s).
Proof.
  intros Hjson Htrue Hslice. enter_chat Hjson. rewrite Htrue. cbn.
  rewrite Hslice. reflexivity.
Qed.

Lemma chat_processor_raises request s d m e w text :
  valid_chat_request request d m ->
  invoke (agent (self s)) (invocation_of (PyStr m) d) (world s) = (inl e, w) ->
  str_format (error_text e) = inr text ->
  _handle_chat request s =
  (inr (json_response (ErrorResponse (exc_str e)) 500),
   answered s m d w (ERROR, Log_chat_error e)).
Proof.
  intros (Hjson & Hm & Hne) Hcall Hformat. enter_chat Hjson.
  rewrite (field_present _ _ _ _ Hm), (truthy_nonempty_str m Hne). cbn.
  rewrite py_getslice_str. cbn. unfold await. cbn.
  unfold invoke in Hcall. cbn in Hcall. rewrite Hcall.
  unfold error_text in Hformat. cbn in Hformat. cbn. rewrite Hformat. reflexivity.
Qed.

(** The error record's message does not format: the exception of
    [str.format] leaves the [except] block, after the request record and
    the invocation. *)
Lemma chat_error_log_raises request s d m e w e' :
  valid_chat_request request d m ->
  invoke (agent (self s)) (invocation_of (PyStr m) d) (world s) = (inl e, w) ->
  str_format (error_text e) = inl e' ->
  _handle_chat request s =
  (inl e',
   {| self := self s;
      world := w;
      log := (log s
              ++ [(INFO, Log_chat_request (field d "session_id" (PyStr "api:default"))
                           (PyStr (str_slice 50 m)))])%list;
      calls := (calls s ++ [invocation_of (PyStr m) d])%list;
      next_oid := next_oid s |}).
Proof.
  intros (Hjson & Hm & Hne) Hcall Hformat. enter_chat Hjson.
  rewrite (field_present _ _ _ _ Hm), (truthy_nonempty_str m Hne). cbn.
  rewrite py_getslice_str. cbn. unfold await. cbn.
  unfold invoke in Hcall. cbn in Hcall. rewrite Hcall.
  unfold error_text in Hformat. cbn in Hformat. cbn. rewrite Hformat. reflexivity.
Qed.

Lemma chat_processor_returns request s d m t w :
  valid_chat_request request d m ->
  invoke (agent (self s)) (invocation_of (PyStr m) d) (world s) = (inr (returned t), w) ->
  exists preview,
    _handle_chat request s =
    (inr (json_response
            (ChatResponse (match t with Some x => x | None => "" end)
               (field d "session_id" (PyStr "api:default"))) 200),
     answered s m d w (INFO, Log_chat_response preview)).
Proof.
  intros (Hjson & Hm & Hne) Hcall.
  destruct (preview_returned t) as [p Hp]. exists p.
  enter_chat Hjson.
  rewrite (field_present _ _ _ _ Hm), (truthy_nonempty_str m Hne). cbn.
  rewrite py_getslice_str. cbn. unfold await. cbn. unfold invoke in Hcall. cbn in Hcall. rewrite Hcall. cbn.
  rewrite py_or_returned.
  destruct (truthy (returned t)); cbn; [rewrite Hp | injection Hp as <-]; reflexivity.
Qed.

(** A valid request invokes the processor once, whatever it answers: the
    history grows by that invocation, the world is the one the processor
    leaves, and the instance is untouched. *)
Lemma chat_invokes_once request s d m :
  valid_chat_request request d m ->
  let s' := snd (_handle_chat request s) in
  calls s' = (calls s ++ [invocation_of (PyStr m) d])%list /\
  world s' = snd (invoke (agent (self s)) (invocation_of (PyStr m) d) (world s)) /\
  self s' = self s.
Proof.
  intros (Hjson & Hm & Hne). enter_chat Hjson.
  rewrite (field_present _ _ _ _ Hm), (truthy_nonempty_str m Hne). cbn.
  rewrite py_getslice_str. cbn. unfold await, invoke. cbn.
  destruct (process_direct _ _ _ _ _ _) as [[e | r] w]; cbn.
  { destruct (str_format _); cbn; now auto. }
  destruct (truthy r); cbn; [| now auto].
  destruct (py_getslice r 100); cbn; [| now auto].
  destruct (str_format _); cbn; now auto.
Qed.

Lemma message_request_valid (m : string) :
  m <> "" -> valid_chat_request (message_request (PyStr m)) [("message", PyStr m)] m.
Proof. intros Hne. repeat split; auto. Qed.

(** *** The chat handler *)

(** C1: for the body [{"message": "Hello!"}] the handler applies the
    three defaults and invokes the processor exactly once, with content
    "Hello!", session key "api:default", channel "api" and chat id
    "default"; and if the processor returns "Hi there!", the response is
    HTTP 200 with body [{"response": "Hi there!", "session_id":
    "api:default"}]. *)
Theorem handle_chat_hello s :
  let request := message_request (PyStr "Hello!") in
  let i := {| content := PyStr "Hello!"; session_key := PyStr "api:default";
              channel := PyStr "api"; chat_id := PyStr "default" |} in
  calls (snd (_handle_chat request s)) = (calls s ++ [i])%list /\
  world (snd (_handle_chat request s)) = snd (invoke (agent (self s)) i (world s)) /\
  (fst (invoke (agent (self s)) i (world s)) = inr (PyStr "Hi there!") ->
   fst (_handle_chat request s) =
   inr {| status := 200;
          content_type := "application/json";
          body := PyDict [("response", PyStr "Hi there!");
                          ("session_id", PyStr "api:default")] |}).
Proof.
  intros request i.
  assert (Hvalid : valid_chat_request request [("message", PyStr "Hello!")] "Hello!")
    by (apply message_request_valid; discriminate).
  destruct (chat_invokes_once request s _ _ Hvalid) as (Hcalls & Hworld & _).
  repeat split; [exact Hcalls | exact Hworld |].
  intros Hret.
  destruct (invoke (agent (self s)) i (world s)) as [r w] eqn:Hcall.
  cbn in Hret. subst r.
  destruct (chat_processor_returns request s _ _ (Some "Hi there!") w Hvalid Hcall)
    as [p ->].
  reflexivity.
Qed.

(** C4: for a body that is a JSON object with a non-empty string
    [message], when the processor succeeds the response is HTTP 200, its
    [session_id] is the one supplied (or "api:default" when omitted) and
    its [response] is the string the processor returned, or "" when that
    string is empty or absent. *)
Theorem handle_chat_success request s d m (t : option string) (w : World) :
  valid_chat_request request d m ->
  invoke (agent (self s)) (invocation_of (PyStr m) d) (world s) = (inr (returned t), w) ->
  fst (_handle_chat request s) =
  inr {| status := 200;
         content_type := "application/json";
         body := PyDict
           [("response", PyStr (match t with
                                | Some "" => ""
                                | Some text => text
                                | None => ""
                                end));
            ("session_id", match dict_lookup "session_id" d with
                           | Some supplied => supplied
                           | None => PyStr "api:default"
                           end)] |}.
Proof.
  intros Hvalid Hcall.
  destruct (chat_processor_returns request s d m t w Hvalid Hcall) as [p ->].
  destruct t as [[|c x]|]; reflexivity.
Qed.

(** C5: a body that is not valid JSON gets HTTP 400 with the error
    "Invalid JSON: " followed by the detail of the failure, and the
    processor is not invoked: the state, with its history of invocations
    and its world, is the one before. *)
Theorem handle_chat_invalid_json request s (e : Exception) :
  json request = inl e ->
  _handle_chat request s =
  (inr {| status := 400;
          content_type := "application/json";
          body := PyDict [("error", PyStr ("Invalid JSON: " ++ exc_str e))] |},
   s).
Proof. apply chat_invalid_json. Qed.

(** X18: a body that is a JSON object whose [message] is missing or is
    the empty string gets HTTP 400 with body [{"error": "Missing
    'message' field"}], and the processor is not invoked. *)
Theorem handle_chat_missing_message request s d :
  json request = inr (PyDict d) ->
  dict_lookup "message" d = None \/ dict_lookup "message" d = Some (PyStr "") ->
  _handle_chat request s =
  (inr {| status := 400;
          content_type := "application/json";
          body := PyDict [("error", PyStr "Missing 'message' field")] |},
   s).
Proof.
  intros Hjson Hm. apply (chat_falsy_message _ _ _ Hjson).
  destruct Hm as [Hm | Hm].
  - rewrite (field_absent _ _ _ Hm). reflexivity.
  - rewrite (field_present _ _ _ _ Hm). reflexivity.
Qed.


(** C7: when the processor fails on a valid chat request with an error
    whose text is "bad {x}", the handler does not return HTTP 500.  The
    [except] block logs with [exc_info=True], so that the record's
    message is formatted, and the field [{x}] of the error's text raises
    a [KeyError] that leaves the handler, after the one invocation of the
    processor. *)
Theorem handle_chat_error_log_raises request s d m (e : Exception) (w : World) :
  valid_chat_request request d m ->
  invoke (agent (self s)) (invocation_of (PyStr m) d) (world s) = (inl e, w) ->
  exc_str e = "bad {x}" ->
  let s' := snd (_handle_chat request s) in
  fst (_handle_chat request s) = inl (mkException "KeyError" "'x'") /\
  calls s' = (calls s ++ [invocation_of (PyStr m) d])%list /\
  world s' = w.
Proof.
  intros Hvalid Hcall Htext s'. subst s'.
  assert (Hformat : str_format (error_text e) = inl (mkException "KeyError" "'x'"))
    by (unfold error_text; rewrite Htext; reflexivity).
  rewrite (chat_error_log_raises request s d m e w _ Hvalid Hcall Hformat).
  repeat split.
Qed.

(** C2: on the body [{"message": 5}] the handler raises: the slice
    [message[:50]] of the log line is evaluated outside both [try]
    blocks, and its [TypeError] leaves the handler. *)
Theorem handle_chat_int_message_raises s :
  _handle_chat (message_request (PyInt 5)) s =
  (inl (mkException "TypeError" "'int' object is not subscriptable"), s).
Proof. reflexivity. Qed.

(** C6: on the body [[]], which is valid JSON and has no [message]
    field, the handler does not return HTTP 400: [data.get] raises an
    [AttributeError] outside both [try] blocks, and it leaves the
    handler. *)
Theorem handle_chat_array_body_raises s :
  _handle_chat (mkRequest (inr (PyList []))) s =
  (inl (mkException "AttributeError" "'list' object has no attribute 'get'"), s).
Proof. reflexivity. Qed.

(** *** The health handler *)

(** C9: for every request and every state the health handler returns
    HTTP 200 with body [{"status": "ok"}]; it does not raise and it
    leaves the state as it is. *)
Theorem handle_health_ok request s :
  _handle_health request s =
  (inr {| status := 200;
          content_type := "application/json";
          body := PyDict [("status", PyStr "ok")] |},
   s).
Proof. reflexivity. Qed.

(** *** The life cycle *)

Lemma stop_without_runner s : _runner (self s) = None -> stop s = (inr tt, s).
Proof. intros Hnone. unfold stop. cbn. rewrite Hnone. reflexivity. Qed.

(** C10: [stop] on a server that was never started returns without an
    error and leaves the state, and in it every field of the instance,
    as it is. *)
Theorem stop_never_started s (a : AgentLoop) (h : string) (p : Z) :
  self s = __init__ a h p ->
  stop s = (inr tt, s) /\ self (snd (stop s)) = __init__ a h p.
Proof.
  intros Hnew.
  assert (Hstop : stop s = (inr tt, s))
    by (apply stop_without_runner; rewrite Hnew; reflexivity).
  rewrite Hstop. split; [reflexivity | exact Hnew].
Qed.

(** C3, as the code has it: [start] looks at no field before it
    overwrites it.  In every state, started or not, it stores a new
    application with the two routes in [_app] and a new runner in
    [_runner], then awaits [runner.setup()]; if that returns it stores a
    new site for [host] and [port] in [_site] and awaits [site.start()].
    It raises exactly when one of the two awaited calls raises, with
    that exception, and returns otherwise. *)
Theorem start_unguarded s :
  let app := {| app_oid := next_oid s;
                app_routes := [mkRoute "POST" "/api/chat" handle_chat_method;
                               mkRoute "GET" "/health" handle_health_method] |} in
  let runner := {| runner_oid := S (next_oid s); runner_app := app |} in
  let site := {| site_oid := S (S (next_oid s)); site_runner := runner;
                 site_host := host (self s); site_port := port (self s) |} in
  let s' := snd (start s) in
  _app (self s') = Some app /\
  _runner (self s') = Some runner /\
  match AppRunner_setup runner (world s) with
  | (inl e, w) =>
      fst (start s) = inl e /\ _site (self s') = _site (self s) /\ world s' = w
  | (inr _, w) =>
      _site (self s') = Some site /\
      match TCPSite_start site w with
      | (inl e, w') => fst (start s) = inl e /\ world s' = w'
      | (inr _, w') => fst (start s) = inr tt /\ world s' = w'
      end
  end.
Proof.
  intros app runner site s'. subst app runner site s'.
  unfold start, await, add_get, add_post. cbn.
  destruct (AppRunner_setup _ (world s)) as [[e | []] w]; cbn; [now auto |].
  destruct (TCPSite_start _ w) as [[e | []] w']; cbn; now auto.
Qed.

End Properties.

(** ** Runs in the concrete environment *)

Lemma handle_chat_hello_witness :
  fst (invoke (env := demo) tt
         {| content := PyStr "Hello!"; session_key := PyStr "api:default";
            channel := PyStr "api"; chat_id := PyStr "default" |}
         (world demo_new)) = inr (PyStr "Hi there!") /\
  fst (_handle_chat (message_request (PyStr "Hello!")) demo_new) =
  inr {| status := 200;
         content_type := "application/json";
         body := PyDict [("response", PyStr "Hi there!");
                         ("session_id", PyStr "api:default")] |}.
Proof.
  assert (Hret : fst (invoke (env := demo) tt
                        {| content := PyStr "Hello!"; session_key := PyStr "api:default";
                           channel := PyStr "api"; chat_id := PyStr "default" |}
                        (world demo_new)) = inr (PyStr "Hi there!")) by reflexivity.
  split; [exact Hret |].
  exact (proj2 (proj2 (handle_chat_hello demo_new)) Hret).
Defined.

Lemma handle_chat_success_witness :
  valid_chat_request (mkRequest (inr (PyDict voice_body))) voice_body "Hello!" /\
  invoke (env := demo) tt (invocation_of (PyStr "Hello!") voice_body) (world demo_new)
    = (inr (returned (Some "Hi there!")), world demo_new) /\
  fst (_handle_chat (mkRequest (inr (PyDict voice_body))) demo_new) =
  inr (mkResponse 200 "application/json"
         (PyDict [("response", PyStr "Hi there!");
                  ("session_id", PyStr "voice:device123")])).
Proof.
  assert (Hvalid : valid_chat_request (mkRequest (inr (PyDict voice_body)))
                     voice_body "Hello!")
    by (repeat split; discriminate).
  assert (Hcall : invoke (env := demo) tt (invocation_of (PyStr "Hello!") voice_body)
                    (world demo_new)
                  = (inr (returned (Some "Hi there!")), world demo_new))
    by reflexivity.
  split; [exact Hvalid |]. split; [exact Hcall |].
  exact (handle_chat_success _ demo_new _ _ _ _ Hvalid Hcall).
Defined.

Lemma handle_chat_invalid_json_witness :
  json (mkRequest (inl decode_error)) = inl decode_error /\
  _handle_chat (mkRequest (inl decode_error)) demo_new =
  (inr (mkResponse 400 "application/json"
          (PyDict [("error",
                    PyStr "Invalid JSON: Expecting value: line 1 column 1 (char 0)")])),
   demo_new).
Proof.
  split; [reflexivity |].
  exact (handle_chat_invalid_json (mkRequest (inl decode_error)) demo_new decode_error
           eq_refl).
Defined.

Lemma handle_chat_missing_message_witness :
  json (mkRequest (inr (PyDict session_body))) = inr (PyDict session_body) /\
  (dict_lookup "message" session_body = None \/
   dict_lookup "message" session_body = Some (PyStr "")) /\
  _handle_chat (mkRequest (inr (PyDict session_body))) demo_new =
  (inr (mkResponse 400 "application/json"
          (PyDict [("error", PyStr "Missing 'message' field")])),
   demo_new).
Proof.
  assert (Hmissing : dict_lookup "message" session_body = None \/
                     dict_lookup "message" session_body = Some (PyStr ""))
    by (left; reflexivity).
  split; [reflexivity |]. split; [exact Hmissing |].
  exact (handle_chat_missing_message (mkRequest (inr (PyDict session_body))) demo_new
           session_body eq_refl Hmissing).
Defined.


Lemma handle_chat_error_log_raises_witness :
  let braces := message_request (PyStr "braces") in
  valid_chat_request braces [("message", PyStr "braces")] "braces" /\
  invoke (env := demo) tt (invocation_of (PyStr "braces") [("message", PyStr "braces")])
    (world demo_new) = (inl bad_field, world demo_new) /\
  exc_str bad_field = "bad {x}" /\
  fst (_handle_chat braces demo_new) = inl (mkException "KeyError" "'x'").
Proof.
  intros braces.
  assert (Hvalid : valid_chat_request braces [("message", PyStr "braces")] "braces")
    by (repeat split; discriminate).
  split; [exact Hvalid |]. split; [reflexivity |]. split; [reflexivity |].
  exact (proj1 (handle_chat_error_log_raises braces demo_new _ _ bad_field
                  (world demo_new) Hvalid eq_refl eq_refl)).
Defined.

Lemma stop_never_started_witness :
  self demo_new = __init__ (env := demo) tt default_host default_port /\
  stop demo_new = (inr tt, demo_new).
Proof.
  split; [reflexivity |].
  exact (proj1 (stop_never_started demo_new tt default_host default_port eq_refl)).
Defined.

(** C3, as the spec has it, fails: a second [start] on the running
    server does not fail with [AlreadyRunning].  It has replaced the
    runner of the first call when the bind of the new site fails, with
    the [OSError] of the operating system. *)
Lemma start_twice_not_AlreadyRunning :
  let s1 := snd (start demo_new) in
  fst (start demo_new) = inr tt /\
  fst (start s1) = inl (mkException "OSError" "[Errno 98] address already in use") /\
  _runner (self (snd (start s1))) <> _runner (self s1) /\
  ~ fails_AlreadyRunning s1.
Proof.
  cbv zeta. split; [reflexivity |]. split; [reflexivity |]. split.
  - vm_compute. discriminate.
  - intros (e & Hfails & Hclass & _).
    vm_compute in Hfails. injection Hfails as <-. vm_compute in Hclass. discriminate.
Qed.

(** ** Further properties of the handlers *)

Section Paths.

Context {env : Environment}.

Implicit Types (s : state env) (request : Request) (d : list (string * pyval)).

Lemma sliceable_getslice (v : pyval) (n : nat) :
  sliceable v = true -> exists p, py_getslice v n = inr p.
Proof. destruct v; try discriminate; cbn; eauto. Qed.

Lemma unsliceable_getslice (v : pyval) (n : nat) :
  sliceable v = false -> exists msg, py_getslice v n = inl (TypeError msg).
Proof. destruct v; try discriminate; cbn; eauto. Qed.

(** The number of characters of [s[:n]]. *)
Lemma str_len_slice (n : nat) (s : string) :
  str_len (str_slice n s) = Nat.min n (str_len s).
Proof.
  revert n. induction s as [| c s IH]; intros n; cbn.
  - now destruct n.
  - destruct (continuation c) eqn:Hc; cbn; rewrite ?Hc.
    + apply IH.
    + destruct n as [| n]; cbn; rewrite ?Hc; [reflexivity | now rewrite IH].
Qed.

Lemma str_append_empty (a : string) : a ++ "" = a.
Proof. induction a as [| c a IH]; cbn; [reflexivity | now rewrite IH]. Qed.

Lemma str_append_assoc (a b c : string) : (a ++ b) ++ c = a ++ (b ++ c).
Proof. induction a as [| x a IH]; cbn; [reflexivity | now rewrite IH]. Qed.

(** A message without a brace formats as itself. *)
Lemma scan_brace_free (text out : string) :
  has_brace text = false -> scan In_text out text = Formatted (out ++ text).
Proof.
  revert out. induction text as [| c text IH]; intros out Hfree; cbn.
  - now rewrite str_append_empty.
  - cbn in Hfree.
    destruct (Ascii.eqb c "{"); [discriminate |].
    destruct (Ascii.eqb c "}"); [discriminate |].
    cbn in Hfree. rewrite (IH _ Hfree), str_append_assoc. reflexivity.
Qed.

Lemma str_format_brace_free (text : string) :
  has_brace text = false -> str_format text = inr text.
Proof. intros Hfree. unfold str_format. now rewrite (scan_brace_free _ _ Hfree). Qed.

Lemma error_text_brace_free (e : Exception) :
  has_brace (exc_str e) = false -> str_format (error_text e) = inr (error_text e).
Proof. intros Hfree. apply str_format_brace_free. exact Hfree. Qed.

Local Arguments py_get : simpl never.
Local Arguments py_getslice : simpl never.
Local Arguments truthy : simpl never.
Local Arguments field : simpl never.
Local Arguments str_format : simpl never.

(** The handler, run up to the outcome of the processor's call. *)
Ltac run_chat Hjson Htruthy Hslice Hcall :=
  unfold _handle_chat, message_of, error_text in *; cbn; rewrite Hjson; cbn;
  rewrite !py_get_dict; cbn; rewrite Htruthy; cbn; rewrite Hslice; cbn;
  unfold await, invoke in *; cbn in *; rewrite Hcall; cbn.

(** Every run of the handler follows one of the paths. *)
Lemma handle_chat_path request s : chat_path request s (_handle_chat request s).
Proof.
  destruct (json request) as [e | data] eqn:Hjson.
  { rewrite (chat_invalid_json _ _ _ Hjson). now constructor. }
  assert (Hdict : (forall d, data <> PyDict d) \/ exists d, data = PyDict d)
    by (destruct data; eauto; left; discriminate).
  destruct Hdict as [Hdict | [d ->]].
  { rewrite (chat_not_a_dict _ _ _ Hjson Hdict). now constructor. }
  destruct (truthy (message_of d)) eqn:Htruthy.
  2: { rewrite (chat_falsy_message _ _ _ Hjson Htruthy). now apply Path_no_message with d. }
  destruct (py_getslice (message_of d) 50) as [e | p] eqn:Hslice.
  { rewrite (chat_unsliceable_message _ _ _ _ Hjson Htruthy Hslice).
    now apply Path_message_slice_raises with d. }
  destruct (invoke (agent (self s)) (invocation_of (message_of d) d) (world s))
    as [[e | r] w] eqn:Hcall.
  { destruct (str_format (error_text e)) as [e' | text] eqn:Hformat.
    - replace (_handle_chat request s)
        with (inl (B := Response) e', requested s d p w).
      + now apply Path_processor_raises_unlogged with e.
      + run_chat Hjson Htruthy Hslice Hcall. rewrite Hformat. reflexivity.
    - replace (_handle_chat request s)
        with (inr (A := Exception) (json_response (ErrorResponse (exc_str e)) 500),
              handled s d p w (ERROR, Log_chat_error e)).
      + apply Path_processor_raises; eauto.
      + run_chat Hjson Htruthy Hslice Hcall. rewrite Hformat. reflexivity. }
  destruct (truthy r) eqn:Hr.
  2: { replace (_handle_chat request s)
         with (inr (A := Exception)
                 (json_response
                    (PyDict [("response", PyStr "");
                             ("session_id",
                              field d "session_id" (PyStr "api:default"))]) 200),
               handled s d p w (INFO, Log_chat_response (PyStr "(empty)"))).
       - now apply Path_response_falsy with r.
       - run_chat Hjson Htruthy Hslice Hcall. unfold py_or. rewrite Hr. reflexivity. }
  destruct (py_getslice r 100) as [e | q] eqn:Hq.
  2: { replace (_handle_chat request s)
         with (inr (A := Exception)
                 (json_response
                    (PyDict [("response", r);
                             ("session_id",
                              field d "session_id" (PyStr "api:default"))]) 200),
               handled s d p w (INFO, Log_chat_response q)).
       - now apply Path_response.
       - run_chat Hjson Htruthy Hslice Hcall. unfold py_or. rewrite Hr. cbn.
         rewrite Hq. reflexivity. }
  destruct (str_format (error_text e)) as [e' | text] eqn:Hformat.
  - replace (_handle_chat request s)
      with (inl (B := Response) e', requested s d p w).
    + now apply Path_response_slice_raises_unlogged with r e.
    + run_chat Hjson Htruthy Hslice Hcall. rewrite Hr. cbn. rewrite Hq. cbn.
      rewrite Hformat. reflexivity.
  - replace (_handle_chat request s)
      with (inr (A := Exception) (json_response (ErrorResponse (exc_str e)) 500),
            handled s d p w (ERROR, Log_chat_error e)).
    + apply Path_response_slice_raises with r; eauto.
    + run_chat Hjson Htruthy Hslice Hcall. rewrite Hr. cbn. rewrite Hq. cbn.
      rewrite Hformat. reflexivity.
Qed.

(** *** What leaves the handler *)

(** X1: a body that is JSON and is not an object (an array, a string, a
    number, [true], [false], [null]) makes the handler raise the
    [AttributeError] of [data.get], before anything is logged or
    invoked. *)
Theorem handle_chat_non_object_raises request s (data : pyval) :
  json request = inr data ->
  (forall d, data <> PyDict d) ->
  _handle_chat request s =
  (inl {| exc_type := "AttributeError";
          exc_str := "'" ++ type_name data ++ "' object has no attribute 'get'" |},
   s).
Proof. intros Hjson Hdata. exact (chat_not_a_dict request s data Hjson Hdata). Qed.

(** X2: a message that is true and is neither a [str] nor a [list] (a
    number, [true], an object) makes the handler raise the [TypeError]
    of [message[:50]], before anything is logged or invoked. *)
Theorem handle_chat_unsliceable_message_raises request s d :
  json request = inr (PyDict d) ->
  truthy (message_of d) = true ->
  sliceable (message_of d) = false ->
  exists msg, _handle_chat request s = (inl (mkException "TypeError" msg), s).
Proof.
  intros Hjson Htruthy Hslice.
  destruct (unsliceable_getslice _ 50 Hslice) as [msg Hmsg]. exists msg.
  exact (chat_unsliceable_message request s d _ Hjson Htruthy Hmsg).
Qed.


(** X4: on a JSON object the response is the 400 "Missing 'message' field"
    exactly when the message is false in Python's sense: absent, [null],
    [false], a zero, or an empty string, array or object. *)
Theorem handle_chat_missing_iff_falsy request s d :
  json request = inr (PyDict d) ->
  fst (_handle_chat request s)
    = inr (json_response (PyDict [("error", PyStr "Missing 'message' field")]) 400)
  <-> truthy (message_of d) = false.
Proof.
  intros Hobject.
  destruct (handle_chat_path request s)
    as [e Hjson | data Hjson Hdata | d' Hjson Hm | d' e Hjson Hm Hp
        | d' p e w Hjson Hm Hp Hcall Hfmt | d' p e e' w Hjson Hm Hp Hcall Hfmt
        | d' p r w Hjson Hm Hp Hcall Hr | d' p r q w Hjson Hm Hp Hcall Hr Hq
        | d' p r e w Hjson Hm Hp Hcall Hr Hq Hfmt
        | d' p r e e' w Hjson Hm Hp Hcall Hr Hq Hfmt];
    rewrite Hobject in Hjson; try discriminate;
    try (injection Hjson as <-); cbn [fst].
  - now destruct (Hdata d).
  - split; [intros _; exact Hm | reflexivity].
  - split; [discriminate | congruence].
  - split; [discriminate | congruence].
  - split; [discriminate | congruence].
  - split; [discriminate | congruence].
  - split; [discriminate | congruence].
  - split; [discriminate | congruence].
  - split; [discriminate | congruence].
Qed.

(** *** The processor's invocation and its answer *)


(** X6: when the processor returns a number other than zero or [True],
    the log line's [response[:100]] raises inside the second [try]: the
    answer is 500 with the text of that [TypeError], though the processor
    succeeded, and it is not invoked again. *)
Theorem handle_chat_unsliceable_response request s d (r : pyval) (w : World) :
  json request = inr (PyDict d) ->
  truthy (message_of d) = true ->
  sliceable (message_of d) = true ->
  invoke (agent (self s)) (invocation_of (message_of d) d) (world s) = (inr r, w) ->
  truthy r = true ->
  number_or_bool r = true ->
  fst (_handle_chat request s)
    = inr {| status := 500;
             content_type := "application/json";
             body := PyDict [("error",
                              PyStr ("'" ++ type_name r
                                     ++ "' object is not subscriptable"))] |} /\
  calls (snd (_handle_chat request s))
    = (calls s ++ [invocation_of (message_of d) d])%list /\
  world (snd (_handle_chat request s)) = w.
Proof.
  intros Hobject Htruthy Hslice Hinvoke Hrtrue Hscalar.
  destruct (sliceable_getslice _ 50 Hslice) as [p0 Hp0].
  assert (Hmsg : py_getslice r 100
                 = inl (TypeError ("'" ++ type_name r ++ "' object is not subscriptable")))
    by (destruct r; try discriminate; reflexivity).
  assert (Hformats : str_format (error_text (TypeError ("'" ++ type_name r
                                   ++ "' object is not subscriptable")))
                     = inr (error_text (TypeError ("'" ++ type_name r
                                   ++ "' object is not subscriptable"))))
    by (apply error_text_brace_free; destruct r; try discriminate; reflexivity).
  destruct (handle_chat_path request s)
    as [e Hjson | data Hjson Hdata | d' Hjson Hm | d' e Hjson Hm Hp
        | d' p e w' Hjson Hm Hp Hcall Hfmt | d' p e e' w' Hjson Hm Hp Hcall Hfmt
        | d' p r' w' Hjson Hm Hp Hcall Hr | d' p r' q w' Hjson Hm Hp Hcall Hr Hq
        | d' p r' e w' Hjson Hm Hp Hcall Hr Hq Hfmt
        | d' p r' e e' w' Hjson Hm Hp Hcall Hr Hq Hfmt];
    rewrite Hobject in Hjson; try discriminate;
    try (injection Hjson as <-); try congruence;
    rewrite Hinvoke in Hcall; injection Hcall as <- <-;
    rewrite Hmsg in Hq; injection Hq as <-; try congruence.
  repeat split.
Qed.


(** X19: when the processor fails on a valid chat request with an error
    whose text has no brace, the handler returns HTTP 500 with body
    [{"error": str(e)}]; the processor has been invoked once, the
    instance is as before, and a valid request that follows, on which the
    processor returns a string or [None], gets its HTTP 200 response. *)
Theorem handle_chat_processor_failure request s d m (e : Exception) (w : World) :
  valid_chat_request request d m ->
  invoke (agent (self s)) (invocation_of (PyStr m) d) (world s) = (inl e, w) ->
  has_brace (exc_str e) = false ->
  let s' := snd (_handle_chat request s) in
  fst (_handle_chat request s) =
    inr {| status := 500;
           content_type := "application/json";
           body := PyDict [("error", PyStr (exc_str e))] |} /\
  calls s' = (calls s ++ [invocation_of (PyStr m) d])%list /\
  self s' = self s /\
  world s' = w /\
  forall request2 d2 m2 (t2 : option string) (w2 : World),
    valid_chat_request request2 d2 m2 ->
    invoke (agent (self s')) (invocation_of (PyStr m2) d2) (world s') = (inr (returned t2), w2) ->
    fst (_handle_chat request2 s') =
    inr {| status := 200;
           content_type := "application/json";
           body := PyDict [("response", PyStr (match t2 with
                                               | Some text => text
                                               | None => ""
                                               end));
                           ("session_id", match dict_lookup "session_id" d2 with
                                          | Some supplied => supplied
                                          | None => PyStr "api:default"
                                          end)] |}.
Proof.
  intros Hvalid Hcall Hfree s'. subst s'.
  rewrite (chat_processor_raises request s d m e w _ Hvalid Hcall
             (error_text_brace_free e Hfree)).
  cbn [fst snd].
  do 4 (split; [reflexivity |]).
  intros request2 d2 m2 t2 w2 Hvalid2 Hcall2.
  destruct (chat_processor_returns request2 (answered s m d w (ERROR, Log_chat_error e))
              d2 m2 t2 w2 Hvalid2 Hcall2) as [p ->].
  reflexivity.
Qed.

(** *** Statuses and the state *)

(** X8: the statuses are 200, 400 and 500, always of a JSON response.  A
    400 leaves the state as it was: nothing logged, nothing invoked.  A
    200 and a 500 come with exactly one invocation.  A raise leaves the
    state as it was, or leaves one invocation and one log record behind,
    when it is the error record that does not format. *)
Theorem handle_chat_status request s :
  match _handle_chat request s with
  | (inr response, s') =>
      content_type response = "application/json" /\
      ((status response = 400%Z /\ s' = s) \/
       ((status response = 200%Z \/ status response = 500%Z) /\
        exists i, calls s' = (calls s ++ [i])%list))
  | (inl e, s') =>
      s' = s \/
      exists i record,
        calls s' = (calls s ++ [i])%list /\ log s' = (log s ++ [record])%list
  end.
Proof.
  destruct (handle_chat_path request s); cbn;
    try (left; reflexivity); try (right; eauto);
    (split; [reflexivity |]); eauto 6.
Qed.

(** X9: the handler never touches the instance.  It logs nothing; or the
    request record alone, and then it raises; or the request record and
    the record of the response or of the error, and then it returns. *)
Theorem handle_chat_frame request s :
  let s' := snd (_handle_chat request s) in
  self s' = self s /\
  next_oid s' = next_oid s /\
  (log s' = log s \/
   exists (session_id preview : pyval),
     (exists e,
        log s' = (log s ++ [(INFO, Log_chat_request session_id preview)])%list /\
        fst (_handle_chat request s) = inl e) \/
     (exists entry response,
        log s' = (log s ++ [(INFO, Log_chat_request session_id preview); entry])%list /\
        fst (_handle_chat request s) = inr response)).
Proof.
  destruct (handle_chat_path request s); cbn;
    (split; [reflexivity |]); (split; [reflexivity |]);
    try (left; reflexivity);
    right; do 2 eexists;
    try (left; eexists; split; reflexivity);
    right; do 2 eexists; rewrite <- app_assoc; split; reflexivity.
Qed.

(** X10: the answer depends on the request, the agent and the world only:
    not on the log, on the history or on the other fields of the
    instance. *)
Theorem handle_chat_independent request s1 s2 :
  agent (self s1) = agent (self s2) ->
  world s1 = world s2 ->
  fst (_handle_chat request s1) = fst (_handle_chat request s2) /\
  world (snd (_handle_chat request s1)) = world (snd (_handle_chat request s2)).
Proof.
  intros Hagent Hworld.
  destruct (handle_chat_path request s1)
    as [e Hjson | data Hjson Hdata | d Hjson Hm | d e Hjson Hm Hp
        | d p e w Hjson Hm Hp Hcall [text Hfmt] | d p e e' w Hjson Hm Hp Hcall Hfmt
        | d p r w Hjson Hm Hp Hcall Hr | d p r q w Hjson Hm Hp Hcall Hr Hq
        | d p r e w Hjson Hm Hp Hcall Hr Hq [text Hfmt]
        | d p r e e' w Hjson Hm Hp Hcall Hr Hq Hfmt];
    rewrite ?Hagent, ?Hworld in *;
    destruct (handle_chat_path request s2)
      as [e2 Hjson2 | data2 Hjson2 Hdata2 | d2 Hjson2 Hm2 | d2 e2 Hjson2 Hm2 Hp2
          | d2 p2 e2 w2 Hjson2 Hm2 Hp2 Hcall2 [text2 Hfmt2]
          | d2 p2 e2 e2' w2 Hjson2 Hm2 Hp2 Hcall2 Hfmt2
          | d2 p2 r2 w2 Hjson2 Hm2 Hp2 Hcall2 Hr2
          | d2 p2 r2 q2 w2 Hjson2 Hm2 Hp2 Hcall2 Hr2 Hq2
          | d2 p2 r2 e2 w2 Hjson2 Hm2 Hp2 Hcall2 Hr2 Hq2 [text2 Hfmt2]
          | d2 p2 r2 e2 e2' w2 Hjson2 Hm2 Hp2 Hcall2 Hr2 Hq2 Hfmt2];
    rewrite Hjson in Hjson2; try discriminate;
    try (injection Hjson2 as <-);
    try (exfalso; eapply Hdata; reflexivity);
    try (exfalso; eapply Hdata2; reflexivity);
    try congruence;
    cbn; try (split; congruence).
Qed.

(** X11: for a string message and a processor that returns a string or
    [None], the two log records hold previews only: the first 50
    characters of the message, and the first 100 of the response or
    "(empty)". *)
Theorem handle_chat_log_previews request s d m (t : option string) (w : World) :
  valid_chat_request request d m ->
  invoke (agent (self s)) (invocation_of (PyStr m) d) (world s) = (inr (returned t), w) ->
  let p := str_slice 50 m in
  let q := match t with
           | Some "" => "(empty)"
           | Some text => str_slice 100 text
           | None => "(empty)"
           end in
  log (snd (_handle_chat request s)) =
    (log s ++ [(INFO, Log_chat_request (field d "session_id" (PyStr "api:default")) (PyStr p));
               (INFO, Log_chat_response (PyStr q))])%list /\
  str_len p = Nat.min 50 (str_len m) /\
  str_len q <= 100.
Proof.
  intros (Hobject & Hmessage & Hne) Hinvoke p q.
  assert (Hm0 : message_of d = PyStr m) by (apply field_present; exact Hmessage).
  split; [| split].
  - destruct (handle_chat_path request s)
      as [e Hjson | data Hjson Hdata | d' Hjson Hm | d' e Hjson Hm Hp
          | d' p' e w' Hjson Hm Hp Hcall Hfmt | d' p' e e' w' Hjson Hm Hp Hcall Hfmt
          | d' p' r w' Hjson Hm Hp Hcall Hr | d' p' r q' w' Hjson Hm Hp Hcall Hr Hq
          | d' p' r e w' Hjson Hm Hp Hcall Hr Hq Hfmt
          | d' p' r e e' w' Hjson Hm Hp Hcall Hr Hq Hfmt];
      rewrite Hobject in Hjson; try discriminate;
      try (injection Hjson as <-);
      try (exfalso; eapply Hdata; reflexivity);
      rewrite Hm0 in *;
      try (rewrite (truthy_nonempty_str m Hne) in Hm; discriminate);
      try (rewrite py_getslice_str in Hp; try discriminate; injection Hp as <-);
      rewrite Hinvoke in Hcall; try discriminate; injection Hcall as <- <-;
      cbn [snd handled requested log]; rewrite <- ?app_assoc; cbn [app];
      destruct t as [[| c x] |]; try discriminate;
      cbn [returned] in *;
      try (rewrite py_getslice_str in Hq; try discriminate; injection Hq as <-);
      reflexivity.
  - apply str_len_slice.
  - subst q. destruct t as [[| c x] |];
      [ cbn; lia | rewrite str_len_slice; apply Nat.le_min_l | cbn; lia ].
Qed.

End Paths.

(** ** Further properties of the life cycle *)

Section Lifecycle.

Context {env : Environment}.

Implicit Types (s : state env) (request : Request) (c : call) (cs : list call).

(** [start], run. *)
Lemma start_run s :
  let installed site :=
    {| agent := agent (self s); host := host (self s); port := port (self s);
       _app := Some (started_app s); _runner := Some (started_runner s);
       _site := site |} in
  start s =
  match AppRunner_setup (started_runner s) (world s) with
  | (inl e, w) =>
      (inl e, mkState (installed (_site (self s))) w (log s) (calls s)
                (S (S (next_oid s))))
  | (inr _, w) =>
      match TCPSite_start (started_site s) w with
      | (inl e, w') =>
          (inl e, mkState (installed (Some (started_site s))) w' (log s) (calls s)
                    (S (S (S (next_oid s)))))
      | (inr _, w') =>
          (inr tt,
           mkState (installed (Some (started_site s))) w'
             (log s ++ [(INFO, Log_server_started (host (self s)) (port (self s)))])
             (calls s) (S (S (S (next_oid s)))))
      end
  end.
Proof.
  unfold start, await, add_get, add_post, started_site, started_runner, started_app. cbn.
  destruct (AppRunner_setup _ (world s)) as [[e | []] w]; cbn; [reflexivity |].
  destruct (TCPSite_start _ w) as [[e | []] w']; reflexivity.
Qed.

(** [stop] with a runner, run. *)
Lemma stop_run s (r : AppRunner) :
  _runner (self s) = Some r ->
  stop s =
  match AppRunner_cleanup r (world s) with
  | (inl e, w) => (inl e, mkState (self s) w (log s) (calls s) (next_oid s))
  | (inr _, w) =>
      (inr tt, mkState (self s) w (log s ++ [(INFO, Log_server_stopped)]) (calls s)
                 (next_oid s))
  end.
Proof.
  intros Hrunner. unfold stop, await. cbn. rewrite Hrunner. cbn.
  destruct (AppRunner_cleanup r (world s)) as [[e | []] w]; reflexivity.
Qed.

Lemma stop_self s : self (snd (stop s)) = self s.
Proof.
  destruct (_runner (self s)) as [r |] eqn:Hrunner.
  - rewrite (stop_run s r Hrunner).
    destruct (AppRunner_cleanup r (world s)) as [[e | []] w]; reflexivity.
  - rewrite (stop_without_runner s Hrunner). reflexivity.
Qed.

Lemma stop_calls s : calls (snd (stop s)) = calls s.
Proof.
  destruct (_runner (self s)) as [r |] eqn:Hrunner.
  - rewrite (stop_run s r Hrunner).
    destruct (AppRunner_cleanup r (world s)) as [[e | []] w]; reflexivity.
  - rewrite (stop_without_runner s Hrunner). reflexivity.
Qed.

Lemma start_calls s : calls (snd (start s)) = calls s.
Proof.
  rewrite start_run.
  destruct (AppRunner_setup _ (world s)) as [[e | []] w]; [reflexivity |].
  destruct (TCPSite_start _ w) as [[e | []] w']; reflexivity.
Qed.

Lemma chat_self request s : self (snd (_handle_chat request s)) = self s.
Proof. destruct (handle_chat_path request s); reflexivity. Qed.

Lemma chat_calls request s :
  calls (snd (_handle_chat request s)) = calls s \/
  exists i, calls (snd (_handle_chat request s)) = (calls s ++ [i])%list.
Proof. destruct (handle_chat_path request s); cbn; eauto. Qed.

(** *** [start] and [stop] *)

(** X12: [start] logs "started", with the host and the port of the instance,
    exactly when it returns; when [runner.setup()] or [site.start()]
    raises it logs nothing.  It never invokes the processor. *)
Theorem start_logs_iff_success s :
  log (snd (start s)) =
    match fst (start s) with
    | inr _ => (log s ++ [(INFO, Log_server_started (host (self s)) (port (self s)))])%list
    | inl _ => log s
    end /\
  calls (snd (start s)) = calls s.
Proof.
  split; [| apply start_calls].
  rewrite start_run.
  destruct (AppRunner_setup _ (world s)) as [[e | []] w]; [reflexivity |].
  destruct (TCPSite_start _ w) as [[e | []] w']; reflexivity.
Qed.

(** X13: [stop] on a server that has a runner awaits the runner's
    [cleanup()]: it returns or raises as that call does, and logs
    "stopped" only when it returns.  It resets no field, so that a second
    [stop] cleans the same runner up again. *)
Theorem stop_with_runner s (r : AppRunner) :
  _runner (self s) = Some r ->
  let s' := snd (stop s) in
  fst (stop s) = fst (AppRunner_cleanup r (world s)) /\
  world s' = snd (AppRunner_cleanup r (world s)) /\
  log s' = match fst (AppRunner_cleanup r (world s)) with
           | inr _ => (log s ++ [(INFO, Log_server_stopped)])%list
           | inl _ => log s
           end /\
  self s' = self s /\
  fst (stop s') = fst (AppRunner_cleanup r (world s')).
Proof.
  intros Hrunner s'.
  assert (Hrunner' : _runner (self s') = Some r)
    by (unfold s'; rewrite stop_self; exact Hrunner).
  rewrite (stop_run s' r Hrunner'). subst s'.
  rewrite (stop_run s r Hrunner).
  destruct (AppRunner_cleanup r (world s)) as [[e | []] w]; cbn [fst snd world log self];
    (do 4 (split; [reflexivity |]));
    destruct (AppRunner_cleanup r w) as [[e' | []] w']; reflexivity.
Qed.

(** X14: after a [start], also one that raised, [stop] cleans up the runner
    that this [start] created. *)
Theorem stop_after_start s :
  let s1 := snd (start s) in
  fst (stop s1) = fst (AppRunner_cleanup (started_runner s) (world s1)) /\
  world (snd (stop s1)) = snd (AppRunner_cleanup (started_runner s) (world s1)).
Proof.
  intros s1.
  assert (Hrunner : _runner (self s1) = Some (started_runner s)).
  { unfold s1. rewrite start_run.
    destruct (AppRunner_setup _ (world s)) as [[e | []] w]; [reflexivity |].
    destruct (TCPSite_start _ w) as [[e | []] w']; reflexivity. }
  rewrite (stop_run s1 _ Hrunner).
  destruct (AppRunner_cleanup _ (world s1)) as [[e | []] w]; split; reflexivity.
Qed.

(** *** Sequences of calls *)

(** X15: whatever is called on the server, in whatever order, and whether the
    calls return or raise, the agent, the host and the port of the
    instance stay those of its construction. *)
Theorem lifetime_config cs s :
  agent (self (after_all cs s)) = agent (self s) /\
  host (self (after_all cs s)) = host (self s) /\
  port (self (after_all cs s)) = port (self s).
Proof.
  revert s. induction cs as [| c cs IH]; intros s; [now auto |].
  unfold after_all in *. cbn [fold_left].
  destruct (IH (after c s)) as (Ha & Hh & Hp). rewrite Ha, Hh, Hp.
  destruct c; cbn [after].
  - rewrite start_run.
    destruct (AppRunner_setup _ (world s)) as [[e | []] w]; [now auto |].
    destruct (TCPSite_start _ w) as [[e | []] w']; now auto.
  - rewrite stop_self. now auto.
  - rewrite chat_self. now auto.
  - now auto.
Qed.

(** X16: as long as [start] is not called, no call changes the instance: its
    [_app], [_runner] and [_site] stay as they are. *)
Theorem lifetime_without_start cs s :
  forallb (fun c => negb (is_start c)) cs = true ->
  self (after_all cs s) = self s.
Proof.
  revert s. induction cs as [| c cs IH]; intros s Hcs; [reflexivity |].
  cbn [forallb] in Hcs. apply andb_prop in Hcs. destruct Hcs as [Hc Hcs].
  unfold after_all in *. cbn [fold_left]. rewrite (IH _ Hcs).
  destruct c; cbn [after]; [discriminate | apply stop_self | apply chat_self | reflexivity].
Qed.

(** X17: the history of invocations only grows, and by at most one
    invocation for each chat request: [start], [stop] and the health
    check never invoke the processor. *)
Theorem lifetime_invocations cs s :
  exists invocations,
    calls (after_all cs s) = (calls s ++ invocations)%list /\
    length invocations <= length (filter is_chat cs).
Proof.
  revert s. induction cs as [| c cs IH]; intros s.
  - exists []. split; [now rewrite app_nil_r | apply le_n].
  - unfold after_all in *. cbn [fold_left].
    destruct (IH (after c s)) as (l & Hl & Hlen). rewrite Hl.
    destruct c; cbn [after filter is_chat].
    + rewrite start_calls. exists l. now split.
    + rewrite stop_calls. exists l. now split.
    + destruct (chat_calls request s) as [-> | [i ->]].
      * exists l. split; [reflexivity | cbn [length]; lia].
      * exists (i :: l). split; [now rewrite <- app_assoc | cbn [length]; lia].
    + exists l. now split.
Qed.

End Lifecycle.

(** ** Further runs in the concrete environments *)

Lemma handle_chat_non_object_raises_witness :
  json (mkRequest (inr (PyStr "Hello!"))) = inr (PyStr "Hello!") /\
  (forall d, PyStr "Hello!" <> PyDict d) /\
  _handle_chat (mkRequest (inr (PyStr "Hello!"))) demo_new =
  (inl (mkException "AttributeError" "'str' object has no attribute 'get'"), demo_new).
Proof.
  assert (Hdata : forall d, PyStr "Hello!" <> PyDict d) by (intros d; discriminate).
  split; [reflexivity |]. split; [exact Hdata |].
  exact (handle_chat_non_object_raises (mkRequest (inr (PyStr "Hello!"))) demo_new
           (PyStr "Hello!") eq_refl Hdata).
Defined.

Lemma handle_chat_unsliceable_message_raises_witness :
  json (message_request (PyBool true)) = inr (PyDict [("message", PyBool true)]) /\
  truthy (message_of [("message", PyBool true)]) = true /\
  sliceable (message_of [("message", PyBool true)]) = false /\
  exists msg,
    _handle_chat (message_request (PyBool true)) demo_new
    = (inl (mkException "TypeError" msg), demo_new).
Proof.
  split; [reflexivity |]. split; [reflexivity |]. split; [reflexivity |].
  exact (handle_chat_unsliceable_message_raises (message_request (PyBool true)) demo_new
           [("message", PyBool true)] eq_refl eq_refl eq_refl).
Defined.

Lemma handle_chat_missing_iff_falsy_witness :
  json (message_request (PyDict [])) = inr (PyDict [("message", PyDict [])]) /\
  (fst (_handle_chat (message_request (PyDict [])) demo_new)
     = inr (json_response (PyDict [("error", PyStr "Missing 'message' field")]) 400)
   <-> truthy (message_of [("message", PyDict [])]) = false).
Proof.
  split; [reflexivity |].
  exact (handle_chat_missing_iff_falsy (message_request (PyDict [])) demo_new
           [("message", PyDict [])] eq_refl).
Defined.


Lemma handle_chat_unsliceable_response_witness :
  let d := [("message", PyStr "Hello!")] in
  json (message_request (PyStr "Hello!")) = inr (PyDict d) /\
  truthy (message_of d) = true /\
  sliceable (message_of d) = true /\
  invoke (env := counting) tt (invocation_of (message_of d) d) (world (counting_new 1))
    = (inr (PyInt 1), 2) /\
  truthy (PyInt 1) = true /\
  number_or_bool (PyInt 1) = true /\
  fst (_handle_chat (message_request (PyStr "Hello!")) (counting_new 1))
    = inr {| status := 500;
             content_type := "application/json";
             body := PyDict [("error", PyStr "'int' object is not subscriptable")] |}.
Proof.
  intros d. do 6 (split; [reflexivity |]).
  exact (proj1 (handle_chat_unsliceable_response (message_request (PyStr "Hello!"))
                  (counting_new 1) d (PyInt 1) 2 eq_refl eq_refl eq_refl eq_refl eq_refl
                  eq_refl)).
Defined.

Lemma handle_chat_processor_failure_witness :
  let crash := message_request (PyStr "crash") in
  let hello := message_request (PyStr "Hello!") in
  valid_chat_request crash [("message", PyStr "crash")] "crash" /\
  invoke (env := demo) tt (invocation_of (PyStr "crash") [("message", PyStr "crash")])
    (world demo_new) = (inl agent_exploded, world demo_new) /\
  has_brace (exc_str agent_exploded) = false /\
  fst (_handle_chat crash demo_new) =
    inr {| status := 500;
           content_type := "application/json";
           body := PyDict [("error", PyStr "agent exploded")] |} /\
  fst (_handle_chat hello (snd (_handle_chat crash demo_new))) =
    inr {| status := 200;
           content_type := "application/json";
           body := PyDict [("response", PyStr "Hi there!");
                           ("session_id", PyStr "api:default")] |}.
Proof.
  intros crash hello.
  assert (Hvalid : valid_chat_request crash [("message", PyStr "crash")] "crash")
    by (repeat split; discriminate).
  assert (Hvalid2 : valid_chat_request hello [("message", PyStr "Hello!")] "Hello!")
    by (repeat split; discriminate).
  split; [exact Hvalid |]. split; [reflexivity |]. split; [reflexivity |].
  destruct (handle_chat_processor_failure crash demo_new _ _ agent_exploded
              (world demo_new) Hvalid eq_refl eq_refl)
    as (Hresponse & _ & _ & _ & Hnext).
  split; [exact Hresponse |].
  exact (Hnext hello _ _ (Some "Hi there!") (world demo_new) Hvalid2 eq_refl).
Defined.


Lemma handle_chat_independent_witness :
  let hello := message_request (PyStr "Hello!") in
  let s2 := snd (_handle_chat hello demo_new) in
  agent (self demo_new) = agent (self s2) /\
  world demo_new = world s2 /\
  log demo_new <> log s2 /\
  fst (_handle_chat hello demo_new) = fst (_handle_chat hello s2).
Proof.
  intros hello s2. split; [reflexivity |]. split; [reflexivity |].
  split; [discriminate |].
  exact (proj1 (handle_chat_independent hello demo_new s2 eq_refl eq_refl)).
Defined.

Lemma handle_chat_log_previews_witness :
  valid_chat_request (mkRequest (inr (PyDict voice_body))) voice_body "Hello!" /\
  invoke (env := demo) tt (invocation_of (PyStr "Hello!") voice_body) (world demo_new)
    = (inr (returned (Some "Hi there!")), world demo_new) /\
  log (snd (_handle_chat (mkRequest (inr (PyDict voice_body))) demo_new)) =
    [(INFO, Log_chat_request (PyStr "voice:device123") (PyStr "Hello!"));
     (INFO, Log_chat_response (PyStr "Hi there!"))].
Proof.
  assert (Hvalid : valid_chat_request (mkRequest (inr (PyDict voice_body)))
                     voice_body "Hello!")
    by (repeat split; discriminate).
  split; [exact Hvalid |]. split; [reflexivity |].
  exact (proj1 (handle_chat_log_previews (mkRequest (inr (PyDict voice_body))) demo_new
                  voice_body "Hello!" (Some "Hi there!") (world demo_new) Hvalid
                  eq_refl)).
Defined.

Lemma stop_with_runner_witness :
  _runner (self demo_started) = Some (started_runner demo_new) /\
  fst (stop demo_started) = inr tt /\
  world (snd (stop demo_started)) = ([] : demo_World) /\
  self (snd (stop demo_started)) = self demo_started.
Proof.
  split; [reflexivity |].
  destruct (stop_with_runner demo_started (started_runner demo_new) eq_refl)
    as (Hresult & Hworld & _ & Hself & _).
  split; [exact Hresult |]. split; [exact Hworld | exact Hself].
Defined.

Lemma lifetime_without_start_witness :
  let hello := message_request (PyStr "Hello!") in
  forallb (fun c => negb (is_start c)) [Stop; Chat hello; Health hello; Stop] = true /\
  self (after_all [Stop; Chat hello; Health hello; Stop] demo_new) = self demo_new.
Proof.
  intros hello. split; [reflexivity |].
  exact (lifetime_without_start [Stop; Chat hello; Health hello; Stop] demo_new eq_refl).
Defined.
